(** * MCVecLib: 2x2 and 3x3 matrix operations over vectors

    A shallow embedding of the TypeScript namespaces [Mat2] (matrix2.ts) and
    [Mat3] (matrix3.ts, the revision with [from(array)], [adjugate],
    [inverse] and [buildTNB]) and of the static method [Vec3.from], together
    with the properties their specification states (claims C1 to C10) and
    further properties of the same functions (X1 onwards): the algebra of
    [mul], [transpose], [adjugate] and [inverse], the failure cases of
    [from], operands of an unexpected shape, the earlier revision of
    matrix3.ts, and the geometry of [buildTNB].

    Numbers.  A JavaScript [number] is read as an exact rational ([Qc], the
    canonical rationals, so that [=] is component-for-component equality and
    [field] applies).  Rounding, NaN and the infinities are outside this
    reading; the one division of the library, [1 / det] in [inverse], is
    guarded by [det === 0].

    Dynamic arguments.  Where the source takes [unknown] or a union and
    inspects the argument at run time ([Array.isArray], [typeof], ['k' in m])
    the argument is a [value]: a number, an array of numbers or a plain
    object, a finite map from field names to numbers. *)

From Stdlib Require Import QArith Qcanon Qcabs Field.
From stdpp Require Import base option list gmap strings.

Local Open Scope Qc_scope.

(** ** Numbers, values, exceptions *)

Abbreviation number := Qc (only parsing).

(** [a === b] on numbers. *)
Definition strict_eq (a b : number) : bool := bool_decide (a = b).

Inductive value : Type :=
| VNumber (x : number)
| VArray (a : list number)
| VObject (o : gmap string number).

(** [typeof v === "object"]: arrays and plain objects. *)
Definition typeof_object (v : value) : bool :=
  match v with
  | VNumber _ => false
  | VArray _ | VObject _ => true
  end.

(** ['k' in v] for a coefficient name [k] (never an index or ["length"]):
    an own field of a plain object; an array has none.  On a number the
    operator raises a TypeError; every use below sits behind
    [typeof v === "object"], so that case is never evaluated. *)
Definition has_field (k : string) (v : value) : bool :=
  match v with
  | VObject o => bool_decide (is_Some (o !! k))
  | VArray _ | VNumber _ => false
  end.

(** [v.k] where the field is known to be present.  JavaScript yields
    [undefined] for an absent field; every read below is guarded by the
    matching [has_field] test, so the default is never observed
    (lemma [field_present]). *)
Definition field (v : value) (k : string) : number :=
  match v with
  | VObject o => default 0 (o !! k)
  | VArray _ | VNumber _ => 0
  end.

Definition Array_isArray (v : value) : bool :=
  match v with
  | VArray _ => true
  | VNumber _ | VObject _ => false
  end.

(** [u.length] and [u[i]] of an array; the reads are guarded by the length
    test, so the default of [index] is never observed. *)
Definition array_length (v : value) : nat :=
  match v with
  | VArray a => length a
  | VNumber _ | VObject _ => O
  end.

Definition index (v : value) (i : nat) : number :=
  match v with
  | VArray a => default 0 (a !! i)
  | VNumber _ | VObject _ => 0
  end.

(** ToNumber of a value, as the operator [*] applies it to its right
    operand; [None] stands for NaN.  An array is converted through its
    string form: [[]] gives 0, a one-element array its element, a longer one
    NaN; a plain object gives NaN. *)
Definition to_number (v : value) : option number :=
  match v with
  | VNumber x => Some x
  | VArray [] => Some 0
  | VArray [x] => Some x
  | VArray _ => None
  | VObject _ => None
  end.

(** An optional parameter [p?: T]: absent ([undefined]), [null], or given.
    Under [&&] a given object is truthy, [undefined] and [null] are not. *)
Inductive optional (A : Type) : Type :=
| Undefined
| Null
| Given (a : A).
Arguments Undefined {A}.
Arguments Null {A}.
Arguments Given {A} a.

(** [p ?? d]: the default is taken for [undefined] and [null] only. *)
Definition nullish {A : Type} (p : optional A) (d : A) : A :=
  match p with
  | Given a => a
  | Undefined | Null => d
  end.

(** [throw new Error(msg)]. *)
Inductive exn : Type :=
| Error (msg : string).

Definition InvalidInput : exn :=
  Error "Invalid input values for vector construction.".

Definition NotInvertible : exn :=
  Error "Matrix is not invertible.".

Inductive result (A : Type) : Type :=
| Return (a : A)
| Throw (e : exn).
Arguments Return {A} a.
Arguments Throw {A} e.

Definition raises {A : Type} (r : result A) (e : exn) : Prop := r = Throw e.

(** ** Vectors *)

Module Vec2.

Record Vector2 : Type := mk { x : number; y : number }.

(** Modelled from the spec: [Vec2.isVector2] of vector2.ts, which is not
    among the sources.  "true iff the value exposes all required numeric
    fields (x,y for 2D)". *)
Definition isVector2 (v : value) : bool :=
  typeof_object v && has_field "x" v && has_field "y" v.

(** The narrowing [v is Vector2]: the fields the callers read. *)
Definition narrow (v : value) : Vector2 :=
  {| x := field v "x"; y := field v "y" |}.

(** Modelled from the spec: [Vec2.dot] of vector2.ts.  "sum of
    component-wise products". *)
Definition dot (a b : Vector2) : number :=
  a.(x) * b.(x) + a.(y) * b.(y).

(** A vector passed where the callee inspects its operand: the plain
    object with its two fields. *)
Definition to_value (v : Vector2) : value :=
  VObject (<["x" := v.(x)]> (<["y" := v.(y)]> ∅)).

End Vec2.

Module Vec3.

(** [export interface Vector3 { x: number, y: number, z: number }] *)
Record Vector3 : Type := mk { x : number; y : number; z : number }.

(** [static from(x: number, y?: number, z?: number): Vector3] *)
Definition from (x0 : number) (y0 z0 : optional number) : Vector3 :=
  {| x := x0;
     y := nullish y0 x0;
     z := nullish z0 x0 |}.

(** Modelled from the spec: [Vec3.isVector3] of vector3.ts, which is not
    among the sources.  "true iff the value exposes all required numeric
    fields (... x,y,z for 3D)". *)
Definition isVector3 (v : value) : bool :=
  typeof_object v && has_field "x" v && has_field "y" v && has_field "z" v.

Definition narrow (v : value) : Vector3 :=
  {| x := field v "x"; y := field v "y"; z := field v "z" |}.

(** A vector passed where the callee takes [unknown]: the plain object
    with its three fields. *)
Definition to_value (v : Vector3) : value :=
  VObject (<["x" := v.(x)]> (<["y" := v.(y)]> (<["z" := v.(z)]> ∅))).

(** Modelled from the spec: [Vec3.dot] of vector3.ts.  "sum of
    component-wise products". *)
Definition dot (a b : Vector3) : number :=
  a.(x) * b.(x) + a.(y) * b.(y) + a.(z) * b.(z).

(** Modelled from the spec: [Vec3.cross] of vector3.ts.
    "(a.y*b.z - a.z*b.y, a.z*b.x - a.x*b.z, a.x*b.y - a.y*b.x)". *)
Definition cross (a b : Vector3) : Vector3 :=
  {| x := a.(y) * b.(z) - a.(z) * b.(y);
     y := a.(z) * b.(x) - a.(x) * b.(z);
     z := a.(x) * b.(y) - a.(y) * b.(x) |}.

(** Modelled from the spec: the constant [Vec3.West] of vector3.ts.  "a
    unit vector along the world west/negative-x axis". *)
Definition West : Vector3 := {| x := - 1; y := 0; z := 0 |}.

End Vec3.

(** ** 2x2 matrices (matrix2.ts) *)

Module Mat2.
Import Vec2.

(** Coefficient [ab] is column [a], row [b]:
    row 1 = (ux, vx), row 2 = (uy, vy). *)
Record Matrix2 : Type := mk {
  ux : number; vx : number;
  uy : number; vy : number
}.

Definition Identity : Matrix2 :=
  {| ux := 1; vx := 0;
     uy := 0; vy := 1 |}.

Definition isMatrix2 (m : value) : bool :=
  typeof_object m
  && has_field "ux" m && has_field "vx" m
  && has_field "uy" m && has_field "vy" m.

(** The narrowing [m is Matrix2]: the fields the callers read. *)
Definition narrow (m : value) : Matrix2 :=
  {| ux := field m "ux"; vx := field m "vx";
     uy := field m "uy"; vy := field m "vy" |}.

(** [from(u: unknown, v?: Vector2)], the implementation behind the
    overloads [from(m: number[])] and [from(u: Vector2, v: Vector2)].
    The second test is [Vec2.isVector2(u) && v]. *)
Definition from (u : value) (v : optional Vector2) : result Matrix2 :=
  if Array_isArray u && (4 <=? array_length u)%nat then
    Return {| ux := index u 0; vx := index u 1;
              uy := index u 2; vy := index u 3 |}
  else if isVector2 u then
    match v with
    | Given v' =>
        Return {| ux := (Vec2.narrow u).(x); vx := v'.(x);
                  uy := (Vec2.narrow u).(y); vy := v'.(y) |}
    | Undefined | Null => Throw InvalidInput
    end
  else Throw InvalidInput.

Definition c1 (m : Matrix2) : Vector2 := {| x := m.(ux); y := m.(uy) |}.
Definition c2 (m : Matrix2) : Vector2 := {| x := m.(vx); y := m.(vy) |}.
Definition r1 (m : Matrix2) : Vector2 := {| x := m.(ux); y := m.(vx) |}.
Definition r2 (m : Matrix2) : Vector2 := {| x := m.(uy); y := m.(vy) |}.

(** The three bodies of [mul], one per declared overload. *)
Definition mul_matrix (m n : Matrix2) : Matrix2 :=
  {| ux := dot (r1 m) (c1 n);
     vx := dot (r1 m) (c2 n);
     uy := dot (r2 m) (c1 n);
     vy := dot (r2 m) (c2 n) |}.

Definition mul_vector (m : Matrix2) (v : Vector2) : Vector2 :=
  {| x := dot (r1 m) v;
     y := dot (r2 m) v |}.

Definition mul_scalar (m : Matrix2) (s : number) : Matrix2 :=
  {| ux := m.(ux) * s; vx := m.(vx) * s;
     uy := m.(uy) * s; vy := m.(vy) * s |}.

(** What [mul] returns: [Matrix2 | Vector2].  [AllNaN] is the matrix the
    last branch builds when its operand does not convert to a number:
    each of the four products is then NaN, outside the exact numbers. *)
Inductive product : Type :=
| PMatrix (r : Matrix2)
| PVector (r : Vector2)
| AllNaN.

(** The last branch, [{ux: m.ux * t, ...}], on an operand of any type. *)
Definition scale (m : Matrix2) (t : value) : product :=
  match to_number t with
  | Some s => PMatrix (mul_scalar m s)
  | None => AllNaN
  end.

(** [mul(m: Matrix2, t: Matrix2 | Vector2 | number)], the implementation:
    the matrix test comes first, then the vector test, then scaling. *)
Definition mul (m : Matrix2) (t : value) : product :=
  if isMatrix2 t then PMatrix (mul_matrix m (narrow t))
  else if isVector2 t then PVector (mul_vector m (Vec2.narrow t))
  else scale m t.

(** Which of the three [return] statements of [mul] runs on [t]. *)
Inductive branch : Type := MatrixBranch | VectorBranch | ScalarBranch.

Definition mul_branch (t : value) : branch :=
  if isMatrix2 t then MatrixBranch
  else if isVector2 t then VectorBranch
  else ScalarBranch.

Definition run_branch (m : Matrix2) (t : value) (b : branch) : product :=
  match b with
  | MatrixBranch => PMatrix (mul_matrix m (narrow t))
  | VectorBranch => PVector (mul_vector m (Vec2.narrow t))
  | ScalarBranch => scale m t
  end.

(** A matrix passed as the second operand of [mul]: the plain object with
    its four coefficients. *)
Definition to_value (m : Matrix2) : value :=
  VObject (<["ux" := m.(ux)]> (<["vx" := m.(vx)]>
          (<["uy" := m.(uy)]> (<["vy" := m.(vy)]> ∅)))).

Definition trace (m : Matrix2) : number := m.(ux) + m.(vy).

Definition determinant (m : Matrix2) : number :=
  m.(ux) * m.(vy) - m.(vx) * m.(uy).

Definition transpose (m : Matrix2) : Matrix2 :=
  {| ux := m.(ux); vx := m.(uy);
     uy := m.(vx); vy := m.(vy) |}.

Definition cofactor (m : Matrix2) : Matrix2 :=
  {| ux := m.(vy);   vx := - m.(uy);
     uy := - m.(vx); vy := m.(ux) |}.

Definition adjugate (m : Matrix2) : Matrix2 :=
  {| ux := m.(vy);   vx := - m.(vx);
     uy := - m.(uy); vy := m.(ux) |}.

(** [mul(adjugate(m), 1 / det)] resolves to the overload
    [mul(m: Matrix2, s: number): Matrix2]; on a number the implementation
    runs the scaling body (lemma [mul_number]). *)
Definition inverse (m : Matrix2) : result Matrix2 :=
  let det := determinant m in
  if strict_eq det 0 then Throw NotInvertible
  else Return (mul_scalar (adjugate m) (1 / det)).

End Mat2.

(** ** 3x3 matrices (matrix3.ts) *)

Module Mat3.
Import Vec3.

(** Columns u, v, w; rows x, y, z. *)
Record Matrix3 : Type := mk {
  ux : number; vx : number; wx : number;
  uy : number; vy : number; wy : number;
  uz : number; vz : number; wz : number
}.

Definition Identity : Matrix3 :=
  {| ux := 1; vx := 0; wx := 0;
     uy := 0; vy := 1; wy := 0;
     uz := 0; vz := 0; wz := 1 |}.

Definition isMatrix3 (m : value) : bool :=
  typeof_object m
  && has_field "ux" m && has_field "vx" m && has_field "wx" m
  && has_field "uy" m && has_field "vy" m && has_field "wy" m
  && has_field "uz" m && has_field "vz" m && has_field "wz" m.

Definition narrow (m : value) : Matrix3 :=
  {| ux := field m "ux"; vx := field m "vx"; wx := field m "wx";
     uy := field m "uy"; vy := field m "vy"; wy := field m "wy";
     uz := field m "uz"; vz := field m "vz"; wz := field m "wz" |}.

(** [from(u: unknown, v?: Vector3, w?: Vector3)].  The second test is
    [Vec3.isVector3(u) && v && w]. *)
Definition from (u : value) (v w : optional Vector3) : result Matrix3 :=
  if Array_isArray u && (9 <=? array_length u)%nat then
    Return {| ux := index u 0; vx := index u 1; wx := index u 2;
              uy := index u 3; vy := index u 4; wy := index u 5;
              uz := index u 6; vz := index u 7; wz := index u 8 |}
  else if isVector3 u then
    match v, w with
    | Given v', Given w' =>
        Return {| ux := (Vec3.narrow u).(x); vx := v'.(x); wx := w'.(x);
                  uy := (Vec3.narrow u).(y); vy := v'.(y); wy := w'.(y);
                  uz := (Vec3.narrow u).(z); vz := v'.(z); wz := w'.(z) |}
    | _, _ => Throw InvalidInput
    end
  else Throw InvalidInput.

Definition c1 (m : Matrix3) : Vector3 :=
  {| x := m.(ux); y := m.(uy); z := m.(uz) |}.
Definition c2 (m : Matrix3) : Vector3 :=
  {| x := m.(vx); y := m.(vy); z := m.(vz) |}.
Definition c3 (m : Matrix3) : Vector3 :=
  {| x := m.(wx); y := m.(wy); z := m.(wz) |}.
Definition r1 (m : Matrix3) : Vector3 :=
  {| x := m.(ux); y := m.(vx); z := m.(wx) |}.
Definition r2 (m : Matrix3) : Vector3 :=
  {| x := m.(uy); y := m.(vy); z := m.(wy) |}.
Definition r3 (m : Matrix3) : Vector3 :=
  {| x := m.(uz); y := m.(vz); z := m.(wz) |}.

Definition mul_matrix (m n : Matrix3) : Matrix3 :=
  {| ux := dot (r1 m) (c1 n);
     vx := dot (r1 m) (c2 n);
     wx := dot (r1 m) (c3 n);
     uy := dot (r2 m) (c1 n);
     vy := dot (r2 m) (c2 n);
     wy := dot (r2 m) (c3 n);
     uz := dot (r3 m) (c1 n);
     vz := dot (r3 m) (c2 n);
     wz := dot (r3 m) (c3 n) |}.

Definition mul_vector (m : Matrix3) (v : Vector3) : Vector3 :=
  {| x := dot (r1 m) v;
     y := dot (r2 m) v;
     z := dot (r3 m) v |}.

Definition mul_scalar (m : Matrix3) (s : number) : Matrix3 :=
  {| ux := m.(ux) * s; vx := m.(vx) * s; wx := m.(wx) * s;
     uy := m.(uy) * s; vy := m.(vy) * s; wy := m.(wy) * s;
     uz := m.(uz) * s; vz := m.(vz) * s; wz := m.(wz) * s |}.

Inductive product : Type :=
| PMatrix (r : Matrix3)
| PVector (r : Vector3)
| AllNaN.

Definition scale (m : Matrix3) (t : value) : product :=
  match to_number t with
  | Some s => PMatrix (mul_scalar m s)
  | None => AllNaN
  end.

(** [mul(m: Matrix3, t: Matrix3 | Vector3 | number)]. *)
Definition mul (m : Matrix3) (t : value) : product :=
  if isMatrix3 t then PMatrix (mul_matrix m (narrow t))
  else if isVector3 t then PVector (mul_vector m (Vec3.narrow t))
  else scale m t.

Inductive branch : Type := MatrixBranch | VectorBranch | ScalarBranch.

Definition mul_branch (t : value) : branch :=
  if isMatrix3 t then MatrixBranch
  else if isVector3 t then VectorBranch
  else ScalarBranch.

Definition run_branch (m : Matrix3) (t : value) (b : branch) : product :=
  match b with
  | MatrixBranch => PMatrix (mul_matrix m (narrow t))
  | VectorBranch => PVector (mul_vector m (Vec3.narrow t))
  | ScalarBranch => scale m t
  end.

Definition to_value (m : Matrix3) : value :=
  VObject (<["ux" := m.(ux)]> (<["vx" := m.(vx)]> (<["wx" := m.(wx)]>
          (<["uy" := m.(uy)]> (<["vy" := m.(vy)]> (<["wy" := m.(wy)]>
          (<["uz" := m.(uz)]> (<["vz" := m.(vz)]> (<["wz" := m.(wz)]>
           ∅))))))))).

Definition trace (m : Matrix3) : number := m.(ux) + m.(vy) + m.(wz).

Definition determinant (m : Matrix3) : number :=
  m.(ux) * m.(vy) * m.(wz) + m.(uy) * m.(vz) * m.(wx)
  + m.(uz) * m.(vx) * m.(wy)
  - m.(wx) * m.(vy) * m.(uz) - m.(wy) * m.(vz) * m.(ux)
  - m.(wz) * m.(vx) * m.(uy).

Definition transpose (m : Matrix3) : Matrix3 :=
  {| ux := m.(ux); vx := m.(uy); wx := m.(uz);
     uy := m.(vx); vy := m.(vy); wy := m.(vz);
     uz := m.(wx); vz := m.(wy); wz := m.(wz) |}.

Definition cofactor (m : Matrix3) : Matrix3 :=
  {| ux := m.(vy) * m.(wz) - m.(wy) * m.(vz);
     vx := m.(wy) * m.(uz) - m.(uy) * m.(wz);
     wx := m.(uy) * m.(vz) - m.(vy) * m.(uz);
     uy := m.(wx) * m.(vz) - m.(vx) * m.(wz);
     vy := m.(ux) * m.(wz) - m.(wx) * m.(uz);
     wy := m.(vx) * m.(uz) - m.(ux) * m.(vz);
     uz := m.(vx) * m.(wy) - m.(wx) * m.(vy);
     vz := m.(wx) * m.(uy) - m.(ux) * m.(wy);
     wz := m.(ux) * m.(vy) - m.(vx) * m.(uy) |}.

Definition adjugate (m : Matrix3) : Matrix3 :=
  {| ux := m.(vy) * m.(wz) - m.(wy) * m.(vz);
     vx := m.(wx) * m.(vz) - m.(vx) * m.(wz);
     wx := m.(vx) * m.(wy) - m.(wx) * m.(vy);
     uy := m.(wy) * m.(uz) - m.(uy) * m.(wz);
     vy := m.(ux) * m.(wz) - m.(wx) * m.(uz);
     wy := m.(wx) * m.(uy) - m.(ux) * m.(wy);
     uz := m.(uy) * m.(vz) - m.(vy) * m.(uz);
     vz := m.(vx) * m.(uz) - m.(ux) * m.(vz);
     wz := m.(ux) * m.(vy) - m.(vx) * m.(uy) |}.

Definition inverse (m : Matrix3) : result Matrix3 :=
  let det := determinant m in
  if strict_eq det 0 then Throw NotInvertible
  else Return (mul_scalar (adjugate m) (1 / det)).

Section TNB.

(** [Vec3.normalize] of vector3.ts is not among the sources, and the
    square root it takes has no exact rational value: it is a parameter
    of [buildTNB]. *)
Variable normalize : Vector3 -> Vector3.

Definition buildTNB (n : Vector3) : result Matrix3 :=
  let u := if strict_eq (Qcabs n.(y)) 1
           then West
           else normalize (Vec3.from n.(z) (Given 0) (Given (- n.(x)))) in
  let w := cross n u in
  from (Vec3.to_value u) (Given n) (Given w).

End TNB.

End Mat3.

(** ** Reference definitions

    The textbook notions the specification refers to, on a matrix given as
    the list of its rows: the Leibniz determinant (a signed sum over all
    permutations), the submatrix with one row and one column deleted, and
    the minor. *)

Module Reference.

Definition rows2 (m : Mat2.Matrix2) : list (list number) :=
  [ [Mat2.ux m; Mat2.vx m];
    [Mat2.uy m; Mat2.vy m] ].

Definition rows3 (m : Mat3.Matrix3) : list (list number) :=
  [ [Mat3.ux m; Mat3.vx m; Mat3.wx m];
    [Mat3.uy m; Mat3.vy m; Mat3.wy m];
    [Mat3.uz m; Mat3.vz m; Mat3.wz m] ].

(** Entry at row [i], column [j], counted from 0. *)
Definition entry (M : list (list number)) (i j : nat) : number :=
  default 0 (M !! i ≫= (.!! j)).

(** Number of pairs out of order in a permutation. *)
Fixpoint inversions (p : list nat) : nat :=
  match p with
  | [] => O
  | a :: q => (length (List.filter (λ b, b <? a)%nat q) + inversions q)%nat
  end.

Definition sign (k : nat) : number := (- 1) ^ k.

(** Product of the entries [(i, p i)], [(i+1, p (i+1))], ... *)
Fixpoint diagonal (M : list (list number)) (i : nat) (p : list nat)
  : number :=
  match p with
  | [] => 1
  | j :: q => entry M i j * diagonal M (S i) q
  end.

Definition sum (l : list number) : number := foldr Qcplus 0 l.

(** Leibniz formula for an [n] by [n] matrix. *)
Definition leibniz (n : nat) (M : list (list number)) : number :=
  sum ((λ p, sign (inversions p) * diagonal M 0 p)
         <$> permutations (seq 0 n)).

(** [M] without row [i] and column [j], counted from 0. *)
Definition submatrix (M : list (list number)) (i j : nat)
  : list (list number) :=
  delete j <$> delete i M.

(** Rows x, y, z and columns u, v, w, numbered from 1 as the
    specification numbers them. *)
Inductive row : Type := X | Y | Z.
Inductive column : Type := U | V | W.

Definition row_number (b : row) : nat :=
  match b with X => 1 | Y => 2 | Z => 3 end.

Definition column_number (a : column) : nat :=
  match a with U => 1 | V => 2 | W => 3 end.

(** Coefficient [ab] is column [a], row [b]. *)
Definition coefficient (m : Mat3.Matrix3) (a : column) (b : row) : number :=
  match a, b with
  | U, X => Mat3.ux m | V, X => Mat3.vx m | W, X => Mat3.wx m
  | U, Y => Mat3.uy m | V, Y => Mat3.vy m | W, Y => Mat3.wy m
  | U, Z => Mat3.uz m | V, Z => Mat3.vz m | W, Z => Mat3.wz m
  end.

(** The minor of row [i], column [j] (numbered from 1): the determinant of
    the 2x2 submatrix obtained by deleting that row and that column. *)
Definition minor (m : Mat3.Matrix3) (i j : nat) : number :=
  leibniz 2 (submatrix (rows3 m) (pred i) (pred j)).

End Reference.

(** ** The earlier revision of matrix3.ts

    The file matrix3.ts kept beside matrix2.ts is an earlier revision of
    [Mat3]: its [from] takes three vectors and has no run-time test, and its
    [mul] knows vectors and numbers only.  The record, [trace],
    [determinant], [transpose] and [cofactor] are those of [Mat3]. *)

Module Mat3Old.
Import Vec3.

(** [from(u: Vector3, v: Vector3, w: Vector3)] *)
Definition from (u v w : Vector3) : Mat3.Matrix3 :=
  {| Mat3.ux := u.(x); Mat3.vx := v.(x); Mat3.wx := w.(x);
     Mat3.uy := u.(y); Mat3.vy := v.(y); Mat3.wy := w.(y);
     Mat3.uz := u.(z); Mat3.vz := v.(z); Mat3.wz := w.(z) |}.

Definition row1 (m : Mat3.Matrix3) : Vector3 :=
  {| x := Mat3.ux m; y := Mat3.vx m; z := Mat3.wx m |}.
Definition row2 (m : Mat3.Matrix3) : Vector3 :=
  {| x := Mat3.uy m; y := Mat3.vy m; z := Mat3.wy m |}.
Definition row3 (m : Mat3.Matrix3) : Vector3 :=
  {| x := Mat3.uz m; y := Mat3.vz m; z := Mat3.wz m |}.

(** [mul(m: Matrix3, t: Vector3 | number)] *)
Definition mul (m : Mat3.Matrix3) (t : value) : Mat3.product :=
  if isVector3 t then
    Mat3.PVector {| x := dot (row1 m) (narrow t);
                    y := dot (row2 m) (narrow t);
                    z := dot (row3 m) (narrow t) |}
  else
    match to_number t with
    | Some s =>
        Mat3.PMatrix
          {| Mat3.ux := Mat3.ux m * s; Mat3.vx := Mat3.vx m * s;
             Mat3.wx := Mat3.wx m * s;
             Mat3.uy := Mat3.uy m * s; Mat3.vy := Mat3.vy m * s;
             Mat3.wy := Mat3.wy m * s;
             Mat3.uz := Mat3.uz m * s; Mat3.vz := Mat3.vz m * s;
             Mat3.wz := Mat3.wz m * s |}
    | None => Mat3.AllNaN
    end.

End Mat3Old.

(** ** Auxiliary notions for the statements *)


(** The four coefficients of a 3x3 matrix that carry the names of a 2x2
    matrix: its upper left block. *)
Definition upper_left (m : Mat3.Matrix3) : Mat2.Matrix2 :=
  {| Mat2.ux := Mat3.ux m; Mat2.vx := Mat3.vx m;
     Mat2.uy := Mat3.uy m; Mat2.vy := Mat3.vy m |}.

(** The matrix [inverse] returns when it returns one. *)
Definition inverse2_value (m : Mat2.Matrix2) : Mat2.Matrix2 :=
  Mat2.mul_scalar (Mat2.adjugate m) (1 / Mat2.determinant m).

Definition inverse3_value (m : Mat3.Matrix3) : Mat3.Matrix3 :=
  Mat3.mul_scalar (Mat3.adjugate m) (1 / Mat3.determinant m).

(** ** Sample inputs *)

(** The matrix of the specification's scenario, [Mat2.from([1,2,3,4])], and
    a 3x3 matrix of determinant 2. *)
Definition sample2 : Mat2.Matrix2 :=
  {| Mat2.ux := 1; Mat2.vx := 2;
     Mat2.uy := Qc_of_Z 3; Mat2.vy := Qc_of_Z 4 |}.

Definition sample3 : Mat3.Matrix3 :=
  {| Mat3.ux := 2; Mat3.vx := 0; Mat3.wx := 1;
     Mat3.uy := 0; Mat3.vy := 1; Mat3.wy := 0;
     Mat3.uz := 0; Mat3.vz := 0; Mat3.wz := 1 |}.

(** The arrays [[1, 2, 3, 4]] and [[]]. *)
Definition sample_array : list number := [1; 2; Qc_of_Z 3; Qc_of_Z 4].
Definition empty_array : list number := [].

(** The coefficients of [sample3], row by row. *)
Definition sample_array9 : list number := [2; 0; 1; 0; 1; 0; 0; 0; 1].

(** A plain object with the four coefficients of [sample2], and the same
    object with one more field. *)
Definition sample2_fields : gmap string number :=
  list_to_map [ ("ux", 1); ("vx", 2); ("uy", Qc_of_Z 3); ("vy", Qc_of_Z 4) ].

Definition sample2_tagged : gmap string number :=
  <["name" := Qc_of_Z 7]> sample2_fields.

(** The same for the nine coefficients of [sample3]. *)
Definition sample3_fields : gmap string number :=
  list_to_map
    [ ("ux", 2); ("vx", 0); ("wx", 1);
      ("uy", 0); ("vy", 1); ("wy", 0);
      ("uz", 0); ("vz", 0); ("wz", 1) ].

Definition sample3_tagged : gmap string number :=
  <["name" := Qc_of_Z 7]> sample3_fields.



(** A normal at the pole that is not of length 1. *)
Definition skew_pole : Vec3.Vector3 :=
  {| Vec3.x := Qc_of_Z 3; Vec3.y := - 1; Vec3.z := 2 |}.

(** The pole of [buildTNB], straight up, and a horizontal normal. *)
Definition up : Vec3.Vector3 := {| Vec3.x := 0; Vec3.y := 1; Vec3.z := 0 |}.
Definition east : Vec3.Vector3 := {| Vec3.x := 1; Vec3.y := 0; Vec3.z := 0 |}.

(** An object with every matrix coefficient and every vector component: it
    passes [isMatrix2], [isMatrix3], [isVector2] and [isVector3] alike. *)
Definition both_shapes : value :=
  VObject (list_to_map
    [ ("ux", 1); ("vx", 0); ("wx", 0);
      ("uy", 0); ("vy", 1); ("wy", 0);
      ("uz", 0); ("vz", 0); ("wz", 1);
      ("x", Qc_of_Z 5); ("y", Qc_of_Z 6); ("z", Qc_of_Z 7) ]).

(** An object with one field, neither matrix nor vector. *)
Definition half_vector : value :=
  VObject (list_to_map [ ("x", 1) ]).

(** ** Proof automation *)

(** Equality of two closed rationals. *)
Ltac qc_eq := apply Qc_is_canon; reflexivity.

(** A closed disequality of rationals. *)
Ltac qc_neq :=
  let H := fresh in
  intros H; apply (f_equal this) in H; vm_compute in H; discriminate H.

(** Unfolding of the coefficient formulas, then a polynomial identity per
    coefficient. *)
Ltac unfold_matrix :=
  unfold inverse2_value, inverse3_value, upper_left,
    Mat2.mul_matrix, Mat2.mul_vector, Mat2.mul_scalar, Mat2.determinant,
    Mat2.transpose, Mat2.adjugate, Mat2.cofactor, Mat2.trace, Mat2.Identity,
    Mat2.c1, Mat2.c2, Mat2.r1, Mat2.r2, Vec2.dot,
    Mat3.mul_matrix, Mat3.mul_vector, Mat3.mul_scalar, Mat3.determinant,
    Mat3.transpose, Mat3.adjugate, Mat3.cofactor, Mat3.trace, Mat3.Identity,
    Mat3.c1, Mat3.c2, Mat3.c3, Mat3.r1, Mat3.r2, Mat3.r3,
    Vec3.dot, Vec3.cross in *;
  cbn in *.

Ltac matrix_ring := unfold_matrix; first [ring | f_equal; ring].

(** ** Values and guarded reads *)

Lemma strict_eq_true (a b : number) : strict_eq a b = true <-> a = b.
Proof. unfold strict_eq. apply bool_decide_eq_true. Qed.

Lemma strict_eq_false (a b : number) : strict_eq a b = false <-> a <> b.
Proof. unfold strict_eq. apply bool_decide_eq_false. Qed.

(** A read behind its presence test returns the stored number. *)
Lemma field_present (k : string) (v : value) :
  has_field k v = true ->
  exists o a, v = VObject o /\ o !! k = Some a /\ field v k = a.
Proof.
  destruct v as [n | l | o]; simpl; try discriminate.
  intros H. apply bool_decide_eq_true in H. destruct H as [a Ha].
  exists o, a. rewrite Ha. auto.
Qed.

Lemma has_field_number (k : string) (n : number) :
  has_field k (VNumber n) = false.
Proof. reflexivity. Qed.

Lemma has_field_array (k : string) (l : list number) :
  has_field k (VArray l) = false.
Proof. reflexivity. Qed.

(** ** Facts about [Mat2] *)

Module Mat2Facts.
Import Vec2 Mat2.

Lemma isMatrix2_to_value (m : Matrix2) : isMatrix2 (to_value m) = true.
Proof. destruct m; reflexivity. Qed.

Lemma narrow2_to_value (m : Matrix2) : narrow (to_value m) = m.
Proof. destruct m; reflexivity. Qed.

(** Behind [isMatrix2] every coefficient read by [narrow] is a stored
    field: the default of [field] is not used. *)
Lemma narrow2_present (t : value) :
  isMatrix2 t = true ->
  exists o, t = VObject o
    /\ o !! "ux" = Some (ux (narrow t)) /\ o !! "vx" = Some (vx (narrow t))
    /\ o !! "uy" = Some (uy (narrow t)) /\ o !! "vy" = Some (vy (narrow t)).
Proof.
  destruct t as [n | l | o]; try discriminate.
  unfold isMatrix2, narrow. cbn. intros H.
  repeat (apply andb_prop in H; destruct H as [H ?]).
  repeat match goal with
         | P : bool_decide (is_Some _) = true |- _ =>
             apply bool_decide_eq_true in P; destruct P as [? P]
         end.
  exists o. split; [reflexivity |].
  repeat split;
    match goal with
    | P : ?l = Some _ |- ?l = _ => rewrite P; reflexivity
    end.
Qed.

(** The overload [mul(m, s: number)]. *)
Lemma mul2_number (m : Matrix2) (s : number) :
  mul m (VNumber s) = PMatrix (mul_scalar m s).
Proof. reflexivity. Qed.

(** The overload [mul(m, n: Matrix2)]. *)
Lemma mul2_to_value (m n : Matrix2) :
  mul m (to_value n) = PMatrix (mul_matrix m n).
Proof.
  unfold mul. rewrite isMatrix2_to_value, narrow2_to_value. reflexivity.
Qed.

Lemma mul2_runs_branch (m : Matrix2) (t : value) :
  mul m t = run_branch m t (mul_branch t).
Proof.
  unfold mul, mul_branch.
  destruct (isMatrix2 t); [reflexivity |].
  destruct (isVector2 t); reflexivity.
Qed.

Lemma inverse2_singular (m : Matrix2) :
  determinant m = 0 -> inverse m = Throw NotInvertible.
Proof.
  intros H. unfold inverse. cbv zeta.
  apply strict_eq_true in H. rewrite H. reflexivity.
Qed.

Lemma inverse2_regular (m : Matrix2) :
  determinant m <> 0 ->
  inverse m = Return (mul_scalar (adjugate m) (1 / determinant m)).
Proof.
  intros H. unfold inverse. cbv zeta.
  apply strict_eq_false in H. rewrite H. reflexivity.
Qed.

Lemma mul2_matrix_inverse (m : Matrix2) :
  determinant m <> 0 ->
  mul_matrix m (mul_scalar (adjugate m) (1 / determinant m)) = Identity.
Proof.
  destruct m as [a b c d]. unfold determinant. cbn. intros H.
  unfold mul_matrix, Identity, dot. cbn.
  f_equal; field; exact H.
Qed.

Lemma from2_long_array (a0 a1 a2 a3 : number) (rest : list number)
    (v : optional Vector2) :
  from (VArray (a0 :: a1 :: a2 :: a3 :: rest)) v
  = Return {| ux := a0; vx := a1; uy := a2; vy := a3 |}.
Proof. reflexivity. Qed.

Lemma from2_short_array (a : list number) (v : optional Vector2) :
  (length a < 4)%nat -> from (VArray a) v = Throw InvalidInput.
Proof.
  intros H. unfold from, Array_isArray, array_length, isVector2.
  destruct (Nat.leb_spec 4 (length a)) as [Hle | _]; [lia |].
  reflexivity.
Qed.

End Mat2Facts.

(** ** Facts about [Vec3] and [Mat3] *)

Module Vec3Facts.
Import Vec3.

Lemma isVector3_to_value (v : Vector3) : isVector3 (to_value v) = true.
Proof. destruct v; reflexivity. Qed.

Lemma narrow_vector3_to_value (v : Vector3) : narrow (to_value v) = v.
Proof. destruct v; reflexivity. Qed.

End Vec3Facts.

Module Mat3Facts.
Import Vec3 Mat3.

Lemma isMatrix3_to_value (m : Matrix3) : isMatrix3 (to_value m) = true.
Proof. destruct m; reflexivity. Qed.

Lemma narrow3_to_value (m : Matrix3) : narrow (to_value m) = m.
Proof. destruct m; reflexivity. Qed.

Lemma mul3_number (m : Matrix3) (s : number) :
  mul m (VNumber s) = PMatrix (mul_scalar m s).
Proof. reflexivity. Qed.

Lemma mul3_to_value (m n : Matrix3) :
  mul m (to_value n) = PMatrix (mul_matrix m n).
Proof.
  unfold mul. rewrite isMatrix3_to_value, narrow3_to_value. reflexivity.
Qed.

Lemma mul3_runs_branch (m : Matrix3) (t : value) :
  mul m t = run_branch m t (mul_branch t).
Proof.
  unfold mul, mul_branch.
  destruct (isMatrix3 t); [reflexivity |].
  destruct (isVector3 t); reflexivity.
Qed.

Lemma inverse3_singular (m : Matrix3) :
  determinant m = 0 -> inverse m = Throw NotInvertible.
Proof.
  intros H. unfold inverse. cbv zeta.
  apply strict_eq_true in H. rewrite H. reflexivity.
Qed.

Lemma inverse3_regular (m : Matrix3) :
  determinant m <> 0 ->
  inverse m = Return (mul_scalar (adjugate m) (1 / determinant m)).
Proof.
  intros H. unfold inverse. cbv zeta.
  apply strict_eq_false in H. rewrite H. reflexivity.
Qed.

Lemma mul3_matrix_inverse (m : Matrix3) :
  determinant m <> 0 ->
  mul_matrix m (mul_scalar (adjugate m) (1 / determinant m)) = Identity.
Proof.
  destruct m as [a b c d e f g h i]. unfold determinant. cbn. intros H.
  unfold mul_matrix, Identity, dot. cbn.
  f_equal; field; exact H.
Qed.

Lemma from3_long_array (a0 a1 a2 a3 a4 a5 a6 a7 a8 : number)
    (rest : list number) (v w : optional Vector3) :
  from (VArray (a0 :: a1 :: a2 :: a3 :: a4 :: a5 :: a6 :: a7 :: a8 :: rest))
       v w
  = Return {| ux := a0; vx := a1; wx := a2;
              uy := a3; vy := a4; wy := a5;
              uz := a6; vz := a7; wz := a8 |}.
Proof. reflexivity. Qed.

Lemma from3_short_array (a : list number) (v w : optional Vector3) :
  (length a < 9)%nat -> from (VArray a) v w = Throw InvalidInput.
Proof.
  intros H. unfold from, Array_isArray, array_length, isVector3.
  destruct (Nat.leb_spec 9 (length a)) as [Hle | _]; [lia |].
  reflexivity.
Qed.

(** [from(u, v, w)] on three vectors: the columns. *)
Lemma from_columns (u v w : Vector3) :
  from (Vec3.to_value u) (Given v) (Given w)
  = Return {| ux := u.(x); vx := v.(x); wx := w.(x);
              uy := u.(y); vy := v.(y); wy := w.(y);
              uz := u.(z); vz := v.(z); wz := w.(z) |}.
Proof.
  unfold from.
  rewrite Vec3Facts.isVector3_to_value, Vec3Facts.narrow_vector3_to_value.
  reflexivity.
Qed.

(** The matrix built from three columns gives them back. *)
Lemma columns_of_from (u v w : Vector3) (m : Matrix3) :
  from (Vec3.to_value u) (Given v) (Given w) = Return m ->
  c1 m = u /\ c2 m = v /\ c3 m = w.
Proof.
  rewrite from_columns. intros H. injection H as <-.
  destruct u, v, w. repeat split.
Qed.

End Mat3Facts.

(** ** The specified properties *)

(** Claim C1.  For every Matrix2 and every Matrix3, [inverse] raises the
    NotInvertible error if and only if the determinant is exactly zero (the
    test is [===], with no tolerance); when the determinant is not zero,
    [inverse] returns the adjugate with each coefficient multiplied by
    [1 / determinant]. *)
Theorem inverse_raises_iff_singular (m2 : Mat2.Matrix2) (m3 : Mat3.Matrix3) :
  (raises (Mat2.inverse m2) NotInvertible <-> Mat2.determinant m2 = 0)
  /\ (Mat2.determinant m2 <> 0 ->
      let a := Mat2.adjugate m2 in
      let s := 1 / Mat2.determinant m2 in
      Mat2.inverse m2
      = Return {| Mat2.ux := Mat2.ux a * s; Mat2.vx := Mat2.vx a * s;
                  Mat2.uy := Mat2.uy a * s; Mat2.vy := Mat2.vy a * s |})
  /\ (raises (Mat3.inverse m3) NotInvertible <-> Mat3.determinant m3 = 0)
  /\ (Mat3.determinant m3 <> 0 ->
      let a := Mat3.adjugate m3 in
      let s := 1 / Mat3.determinant m3 in
      Mat3.inverse m3
      = Return
          {| Mat3.ux := Mat3.ux a * s; Mat3.vx := Mat3.vx a * s;
             Mat3.wx := Mat3.wx a * s;
             Mat3.uy := Mat3.uy a * s; Mat3.vy := Mat3.vy a * s;
             Mat3.wy := Mat3.wy a * s;
             Mat3.uz := Mat3.uz a * s; Mat3.vz := Mat3.vz a * s;
             Mat3.wz := Mat3.wz a * s |}).
Proof.
  unfold raises. repeat split.
  - intros H. destruct (decide (Mat2.determinant m2 = 0)) as [E | N]; [exact E |].
    rewrite (Mat2Facts.inverse2_regular _ N) in H. discriminate H.
  - apply Mat2Facts.inverse2_singular.
  - intros N. apply (Mat2Facts.inverse2_regular _ N).
  - intros H. destruct (decide (Mat3.determinant m3 = 0)) as [E | N]; [exact E |].
    rewrite (Mat3Facts.inverse3_regular _ N) in H. discriminate H.
  - apply Mat3Facts.inverse3_singular.
  - intros N. apply (Mat3Facts.inverse3_regular _ N).
Qed.

Lemma sample2_regular : Mat2.determinant sample2 <> 0.
Proof. qc_neq. Qed.

Lemma sample3_regular : Mat3.determinant sample3 <> 0.
Proof. qc_neq. Qed.

Lemma inverse_raises_iff_singular_witness :
  Mat2.determinant sample2 <> 0
  /\ Mat3.determinant sample3 <> 0
  /\ Mat2.inverse sample2
     = Return (Mat2.mul_scalar (Mat2.adjugate sample2)
                               (1 / Mat2.determinant sample2))
  /\ Mat3.inverse sample3
     = Return (Mat3.mul_scalar (Mat3.adjugate sample3)
                               (1 / Mat3.determinant sample3)).
Proof.
  pose proof (inverse_raises_iff_singular sample2 sample3)
    as (_ & H2 & _ & H3).
  split; [exact sample2_regular |].
  split; [exact sample3_regular |].
  split; [exact (H2 sample2_regular) | exact (H3 sample3_regular)].
Defined.

(** Claim C2.  For every normal [n], [buildTNB n] returns a matrix whose
    second column is [n] itself; its first column is the fixed vector
    [West], along negative x, when [|n.y| === 1], and
    [normalize (n.z, 0, -n.x)] otherwise; its third column is the cross
    product of [n] with the first column.  In particular [buildTNB] of
    [(0, 1, 0)] takes the fallback branch, whatever [normalize] does. *)
Theorem buildTNB_columns (normalize : Vec3.Vector3 -> Vec3.Vector3)
    (n : Vec3.Vector3) :
  (exists m,
      Mat3.buildTNB normalize n = Return m
      /\ Mat3.c2 m = n
      /\ (Qcabs (Vec3.y n) = 1 -> Mat3.c1 m = Vec3.West)
      /\ (Qcabs (Vec3.y n) <> 1 ->
          Mat3.c1 m
          = normalize {| Vec3.x := Vec3.z n; Vec3.y := 0;
                         Vec3.z := - Vec3.x n |})
      /\ Mat3.c3 m = Vec3.cross n (Mat3.c1 m))
  /\ Mat3.buildTNB normalize {| Vec3.x := 0; Vec3.y := 1; Vec3.z := 0 |}
     = Return {| Mat3.ux := - 1; Mat3.vx := 0; Mat3.wx := 0;
                 Mat3.uy := 0;   Mat3.vy := 1; Mat3.wy := 0;
                 Mat3.uz := 0;   Mat3.vz := 0; Mat3.wz := 1 |}.
Proof.
  split.
  - unfold Mat3.buildTNB. cbv zeta.
    set (u := if strict_eq (Qcabs (Vec3.y n)) 1 then Vec3.West else _).
    rewrite Mat3Facts.from_columns.
    eexists. split; [reflexivity |].
    destruct (Mat3Facts.columns_of_from u n (Vec3.cross n u) _
                (Mat3Facts.from_columns _ _ _)) as (E1 & E2 & E3).
    rewrite E1, E2, E3.
    split; [reflexivity |].
    split; [| split; [| reflexivity]]; intros H; subst u.
    + apply strict_eq_true in H. rewrite H. reflexivity.
    + apply strict_eq_false in H. rewrite H. reflexivity.
  - unfold Mat3.buildTNB. cbv zeta.
    rewrite Mat3Facts.from_columns.
    replace (strict_eq
               (Qcabs (Vec3.y {| Vec3.x := 0; Vec3.y := 1; Vec3.z := 0 |})) 1)
      with true by (symmetry; apply strict_eq_true; qc_eq).
    cbn. do 2 f_equal; ring.
Qed.

Lemma up_is_pole : Qcabs (Vec3.y up) = 1.
Proof. qc_eq. Qed.

Lemma east_is_no_pole : Qcabs (Vec3.y east) <> 1.
Proof. qc_neq. Qed.

Lemma buildTNB_columns_witness :
  Qcabs (Vec3.y up) = 1
  /\ Qcabs (Vec3.y east) <> 1
  /\ (exists m, Mat3.buildTNB id up = Return m
                /\ Mat3.c1 m = Vec3.West /\ Mat3.c2 m = up)
  /\ (exists m, Mat3.buildTNB id east = Return m
                /\ Mat3.c1 m = {| Vec3.x := 0; Vec3.y := 0; Vec3.z := - 1 |}
                /\ Mat3.c2 m = east).
Proof.
  split; [exact up_is_pole |].
  split; [exact east_is_no_pole |].
  split.
  - destruct (buildTNB_columns id up) as [(m & Hm & H2 & H1 & _ & _) _].
    exists m. split; [exact Hm |].
    split; [exact (H1 up_is_pole) | exact H2].
  - destruct (buildTNB_columns id east) as [(m & Hm & H2 & _ & H1 & _) _].
    exists m. split; [exact Hm |].
    split; [exact (H1 east_is_no_pole) | exact H2].
Defined.

(** Claim C3.  Every coefficient of [Mat3.cofactor m], taken at column [a]
    and row [b], is [(-1)^(i+j)] times the minor of [m] at row [i], column
    [j]: the determinant of the 2x2 matrix left when row [i] and column [j]
    are deleted. *)
Theorem cofactor_signed_minors (m : Mat3.Matrix3)
    (a : Reference.column) (b : Reference.row) :
  let i := Reference.row_number b in
  let j := Reference.column_number a in
  Reference.coefficient (Mat3.cofactor m) a b
  = Reference.sign (i + j) * Reference.minor m i j.
Proof.
  destruct m as [ux vx wx uy vy wy uz vz wz].
  destruct a, b; cbn; ring.
Qed.

(** The named coefficients sit in the rows as the data model lays them
    out: coefficient [ab] is the entry of row [b], column [a]. *)
Lemma coefficient_entry (m : Mat3.Matrix3)
    (a : Reference.column) (b : Reference.row) :
  Reference.coefficient m a b
  = Reference.entry (Reference.rows3 m)
      (pred (Reference.row_number b)) (pred (Reference.column_number a)).
Proof. destruct a, b; reflexivity. Qed.

(** Claim C4.  [Mat2.determinant m] is [ux*vy - vx*uy], and
    [Mat3.determinant m] is
    [ux*vy*wz + uy*vz*wx + uz*vx*wy - wx*vy*uz - wy*vz*ux - wz*vx*uy];
    both are the Leibniz determinant of the matrix laid out in rows. *)
Theorem determinant_formulas (m2 : Mat2.Matrix2) (m3 : Mat3.Matrix3) :
  Mat2.determinant m2
  = Mat2.ux m2 * Mat2.vy m2 - Mat2.vx m2 * Mat2.uy m2
  /\ Mat3.determinant m3
     = Mat3.ux m3 * Mat3.vy m3 * Mat3.wz m3
       + Mat3.uy m3 * Mat3.vz m3 * Mat3.wx m3
       + Mat3.uz m3 * Mat3.vx m3 * Mat3.wy m3
       - Mat3.wx m3 * Mat3.vy m3 * Mat3.uz m3
       - Mat3.wy m3 * Mat3.vz m3 * Mat3.ux m3
       - Mat3.wz m3 * Mat3.vx m3 * Mat3.uy m3
  /\ Mat2.determinant m2 = Reference.leibniz 2 (Reference.rows2 m2)
  /\ Mat3.determinant m3 = Reference.leibniz 3 (Reference.rows3 m3).
Proof.
  split; [reflexivity |]. split; [reflexivity |].
  destruct m2 as [a b c d]. destruct m3 as [ux vx wx uy vy wy uz vz wz].
  split; unfold Mat2.determinant, Mat3.determinant; cbn; ring.
Qed.

(** Claim C5.  The adjugate is the transpose of the cofactor matrix,
    coefficient for coefficient, for 2x2 and for 3x3 matrices. *)
Theorem adjugate_transpose_cofactor (m2 : Mat2.Matrix2) (m3 : Mat3.Matrix3) :
  Mat2.adjugate m2 = Mat2.transpose (Mat2.cofactor m2)
  /\ Mat3.adjugate m3 = Mat3.transpose (Mat3.cofactor m3).
Proof. split; reflexivity. Qed.

(** Claim C6.  [Mat2.from] on an array of at least 4 numbers takes them in
    row-major order, [ux = a[0]], [vx = a[1]], [uy = a[2]], [vy = a[3]],
    and raises InvalidInput on every array of fewer than 4 numbers;
    [Mat3.from] does the same with 9 numbers.  The empty array is among the
    short ones. *)
Theorem from_array_row_major (a : list number)
    (v2 : optional Vec2.Vector2) (v3 w3 : optional Vec3.Vector3) :
  (4 <= length a ->
   exists a0 a1 a2 a3,
     a !! 0%nat = Some a0 /\ a !! 1%nat = Some a1
     /\ a !! 2%nat = Some a2 /\ a !! 3%nat = Some a3
     /\ Mat2.from (VArray a) v2
        = Return {| Mat2.ux := a0; Mat2.vx := a1;
                    Mat2.uy := a2; Mat2.vy := a3 |})%nat
  /\ (length a < 4 -> raises (Mat2.from (VArray a) v2) InvalidInput)%nat
  /\ (9 <= length a ->
      exists a0 a1 a2 a3 a4 a5 a6 a7 a8,
        a !! 0%nat = Some a0 /\ a !! 1%nat = Some a1 /\ a !! 2%nat = Some a2
        /\ a !! 3%nat = Some a3 /\ a !! 4%nat = Some a4
        /\ a !! 5%nat = Some a5
        /\ a !! 6%nat = Some a6 /\ a !! 7%nat = Some a7
        /\ a !! 8%nat = Some a8
        /\ Mat3.from (VArray a) v3 w3
           = Return {| Mat3.ux := a0; Mat3.vx := a1; Mat3.wx := a2;
                       Mat3.uy := a3; Mat3.vy := a4; Mat3.wy := a5;
                       Mat3.uz := a6; Mat3.vz := a7; Mat3.wz := a8 |})%nat
  /\ (length a < 9 -> raises (Mat3.from (VArray a) v3 w3) InvalidInput)%nat.
Proof.
  split; [| split; [| split]].
  - intros H.
    destruct a as [| a0 [| a1 [| a2 [| a3 rest]]]]; simpl in H; try lia.
    exists a0, a1, a2, a3. repeat split.
  - apply Mat2Facts.from2_short_array.
  - intros H.
    destruct a as [| a0 [| a1 [| a2 [| a3 [| a4 [| a5 [| a6 [| a7 [| a8 rest]]]]]]]]];
      simpl in H; try lia.
    exists a0, a1, a2, a3, a4, a5, a6, a7, a8. repeat split.
  - apply Mat3Facts.from3_short_array.
Qed.

Lemma from_array_row_major_witness :
  (length empty_array < 4)%nat
  /\ (length empty_array < 9)%nat
  /\ raises (Mat2.from (VArray empty_array) Undefined) InvalidInput
  /\ raises (Mat3.from (VArray empty_array) Undefined Undefined) InvalidInput
  /\ (4 <= length sample_array)%nat
  /\ (exists a0 a1 a2 a3,
        sample_array !! 0%nat = Some a0
        /\ sample_array !! 1%nat = Some a1
        /\ sample_array !! 2%nat = Some a2
        /\ sample_array !! 3%nat = Some a3
        /\ Mat2.from (VArray sample_array) Undefined
           = Return {| Mat2.ux := a0; Mat2.vx := a1;
                       Mat2.uy := a2; Mat2.vy := a3 |}).
Proof.
  assert (H0 : (length empty_array < 4)%nat) by (simpl; lia).
  assert (H1 : (length empty_array < 9)%nat) by (simpl; lia).
  assert (H2 : (4 <= length sample_array)%nat)
    by (simpl; lia).
  split; [exact H0 |]. split; [exact H1 |].
  destruct (from_array_row_major empty_array Undefined Undefined Undefined)
    as (_ & S2 & _ & S3).
  split; [exact (S2 H0) |]. split; [exact (S3 H1) |].
  split; [exact H2 |].
  destruct (from_array_row_major sample_array
              Undefined Undefined Undefined) as (L2 & _).
  exact (L2 H2).
Defined.

(** Claim C7.  For every matrix [m] whose determinant is not zero,
    [mul(m, inverse(m))] is the identity matrix of the same size, exactly,
    in exact rational arithmetic. *)
Theorem mul_inverse_identity (m2 : Mat2.Matrix2) (m3 : Mat3.Matrix3) :
  (Mat2.determinant m2 <> 0 ->
   exists n, Mat2.inverse m2 = Return n
             /\ Mat2.mul m2 (Mat2.to_value n) = Mat2.PMatrix Mat2.Identity)
  /\ (Mat3.determinant m3 <> 0 ->
      exists n, Mat3.inverse m3 = Return n
                /\ Mat3.mul m3 (Mat3.to_value n)
                   = Mat3.PMatrix Mat3.Identity).
Proof.
  split; intros N.
  - eexists. split; [apply (Mat2Facts.inverse2_regular _ N) |].
    rewrite Mat2Facts.mul2_to_value. f_equal.
    apply (Mat2Facts.mul2_matrix_inverse _ N).
  - eexists. split; [apply (Mat3Facts.inverse3_regular _ N) |].
    rewrite Mat3Facts.mul3_to_value. f_equal.
    apply (Mat3Facts.mul3_matrix_inverse _ N).
Qed.

Lemma mul_inverse_identity_witness :
  Mat2.determinant sample2 <> 0
  /\ Mat3.determinant sample3 <> 0
  /\ (exists n, Mat2.inverse sample2 = Return n
                /\ Mat2.mul sample2 (Mat2.to_value n)
                   = Mat2.PMatrix Mat2.Identity)
  /\ (exists n, Mat3.inverse sample3 = Return n
                /\ Mat3.mul sample3 (Mat3.to_value n)
                   = Mat3.PMatrix Mat3.Identity).
Proof.
  destruct (mul_inverse_identity sample2 sample3) as [H2 H3].
  split; [exact sample2_regular |].
  split; [exact sample3_regular |].
  split; [exact (H2 sample2_regular) | exact (H3 sample3_regular)].
Defined.

(** Claim C8.  Transposing twice gives the matrix back, coefficient for
    coefficient, for 2x2 and for 3x3 matrices. *)
Theorem transpose_involutive (m2 : Mat2.Matrix2) (m3 : Mat3.Matrix3) :
  Mat2.transpose (Mat2.transpose m2) = m2
  /\ Mat3.transpose (Mat3.transpose m3) = m3.
Proof. destruct m2, m3. split; reflexivity. Qed.

(** Claim C9.  [mul] tests the matrix predicate before the vector
    predicate: an operand [t] that satisfies both runs the matrix-by-matrix
    branch; the scaling branch runs exactly when [t] satisfies neither,
    whatever kind of value [t] is. *)
Theorem mul_dispatch_order (m2 : Mat2.Matrix2) (m3 : Mat3.Matrix3)
    (t : value) :
  Mat2.mul m2 t = Mat2.run_branch m2 t (Mat2.mul_branch t)
  /\ (Mat2.isMatrix2 t = true -> Vec2.isVector2 t = true ->
      Mat2.mul_branch t = Mat2.MatrixBranch
      /\ Mat2.mul m2 t = Mat2.PMatrix (Mat2.mul_matrix m2 (Mat2.narrow t)))
  /\ (Mat2.mul_branch t = Mat2.ScalarBranch
      <-> Mat2.isMatrix2 t = false /\ Vec2.isVector2 t = false)
  /\ Mat3.mul m3 t = Mat3.run_branch m3 t (Mat3.mul_branch t)
  /\ (Mat3.isMatrix3 t = true -> Vec3.isVector3 t = true ->
      Mat3.mul_branch t = Mat3.MatrixBranch
      /\ Mat3.mul m3 t = Mat3.PMatrix (Mat3.mul_matrix m3 (Mat3.narrow t)))
  /\ (Mat3.mul_branch t = Mat3.ScalarBranch
      <-> Mat3.isMatrix3 t = false /\ Vec3.isVector3 t = false).
Proof.
  split; [apply Mat2Facts.mul2_runs_branch |].
  split; [| split].
  - intros Hm _. unfold Mat2.mul, Mat2.mul_branch. rewrite Hm. auto.
  - unfold Mat2.mul_branch.
    destruct (Mat2.isMatrix2 t), (Vec2.isVector2 t);
      split; try discriminate; try tauto; intros [? ?]; discriminate.
  - split; [apply Mat3Facts.mul3_runs_branch |].
    split.
    + intros Hm _. unfold Mat3.mul, Mat3.mul_branch. rewrite Hm. auto.
    + unfold Mat3.mul_branch.
      destruct (Mat3.isMatrix3 t), (Vec3.isVector3 t);
        split; try discriminate; try tauto; intros [? ?]; discriminate.
Qed.

Lemma mul_dispatch_order_witness :
  Mat2.isMatrix2 both_shapes = true
  /\ Vec2.isVector2 both_shapes = true
  /\ Mat3.isMatrix3 both_shapes = true
  /\ Vec3.isVector3 both_shapes = true
  /\ Mat2.mul sample2 both_shapes
     = Mat2.PMatrix (Mat2.mul_matrix sample2 (Mat2.narrow both_shapes))
  /\ Mat3.mul sample3 both_shapes
     = Mat3.PMatrix (Mat3.mul_matrix sample3 (Mat3.narrow both_shapes)).
Proof.
  destruct (mul_dispatch_order sample2 sample3 both_shapes)
    as (_ & H2 & _ & _ & H3 & _).
  split; [reflexivity |]. split; [reflexivity |].
  split; [reflexivity |]. split; [reflexivity |].
  split.
  - exact (proj2 (H2 eq_refl eq_refl)).
  - exact (proj2 (H3 eq_refl eq_refl)).
Defined.

(** Claim C10.  [Vec3.from] fills a component that is left out, or passed
    as [undefined] or [null], with the [x] argument, never with zero:
    [from(s)] is [(s, s, s)] and [from(x, undefined, z)] is [(x, x, z)]; a
    component that is given, the number 0 included, is kept. *)
Theorem Vec3_from_defaults (s x0 y0 z0 : number) :
  Vec3.from s Undefined Undefined
  = {| Vec3.x := s; Vec3.y := s; Vec3.z := s |}
  /\ Vec3.from x0 Undefined (Given z0)
     = {| Vec3.x := x0; Vec3.y := x0; Vec3.z := z0 |}
  /\ Vec3.from x0 (Given 0) (Given 0)
     = {| Vec3.x := x0; Vec3.y := 0; Vec3.z := 0 |}
  /\ Vec3.from x0 (Given y0) (Given z0)
     = {| Vec3.x := x0; Vec3.y := y0; Vec3.z := z0 |}
  /\ Vec3.from x0 (Given y0) Undefined
     = {| Vec3.x := x0; Vec3.y := y0; Vec3.z := x0 |}
  /\ Vec3.from x0 Null Null
     = {| Vec3.x := x0; Vec3.y := x0; Vec3.z := x0 |}.
Proof. repeat split. Qed.

(** ** The scenarios of the specification *)

Example from_1234 :
  Mat2.from (VArray sample_array) Undefined = Return sample2.
Proof. reflexivity. Qed.

Example determinant_1234 : Mat2.determinant sample2 = - 2.
Proof. qc_eq. Qed.

Example inverse_1234 :
  Mat2.inverse sample2
  = Return {| Mat2.ux := - 2; Mat2.vx := 1;
              Mat2.uy := Q2Qc (3 # 2); Mat2.vy := Q2Qc (- 1 # 2) |}.
Proof.
  rewrite (Mat2Facts.inverse2_regular _ sample2_regular).
  unfold Mat2.mul_scalar. cbn. do 2 f_equal; qc_eq.
Qed.

Example inverse_zero_matrix :
  Mat2.inverse {| Mat2.ux := 0; Mat2.vx := 0; Mat2.uy := 0; Mat2.vy := 0 |}
  = Throw NotInvertible.
Proof. apply Mat2Facts.inverse2_singular. qc_eq. Qed.

Example inverse_identical_rows :
  Mat3.inverse {| Mat3.ux := 1; Mat3.vx := 2; Mat3.wx := 1;
                  Mat3.uy := 1; Mat3.vy := 2; Mat3.wy := 1;
                  Mat3.uz := 0; Mat3.vz := 1; Mat3.wz := 2 |}
  = Throw NotInvertible.
Proof. apply Mat3Facts.inverse3_singular. qc_eq. Qed.

Example cross_x_y :
  Vec3.cross east up = {| Vec3.x := 0; Vec3.y := 0; Vec3.z := 1 |}.
Proof. unfold Vec3.cross. cbn. f_equal; qc_eq. Qed.

Example identity_determinant_trace :
  Mat2.determinant Mat2.Identity = 1 /\ Mat3.determinant Mat3.Identity = 1
  /\ Mat2.trace Mat2.Identity = 2 /\ Mat3.trace Mat3.Identity = Qc_of_Z 3.
Proof. repeat split; qc_eq. Qed.

(** An operand with every field runs the matrix branch, one with a single
    field the scaling branch, where it converts to NaN. *)
Example mul_both_shapes :
  Mat2.mul_branch both_shapes = Mat2.MatrixBranch
  /\ Mat3.mul_branch both_shapes = Mat3.MatrixBranch
  /\ Mat2.mul sample2 both_shapes = Mat2.PMatrix sample2.
Proof.
  split; [reflexivity |]. split; [reflexivity |].
  unfold Mat2.mul.
  replace (Mat2.isMatrix2 both_shapes) with true by reflexivity.
  unfold Mat2.mul_matrix, Vec2.dot, sample2. cbn. do 2 f_equal; qc_eq.
Qed.

Example mul_half_vector :
  Mat2.mul_branch half_vector = Mat2.ScalarBranch
  /\ Mat2.mul sample2 half_vector = Mat2.AllNaN
  /\ Mat3.mul_branch half_vector = Mat3.ScalarBranch
  /\ Mat3.mul sample3 half_vector = Mat3.AllNaN.
Proof. repeat split. Qed.

(** ** Algebra of the typed overloads *)

Module Mat2Algebra.
Import Vec2 Mat2.

Lemma isMatrix2_vector (v : Vector2) : isMatrix2 (Vec2.to_value v) = false.
Proof. destruct v; reflexivity. Qed.

Lemma isVector2_to_value (v : Vector2) : isVector2 (Vec2.to_value v) = true.
Proof. destruct v; reflexivity. Qed.

Lemma narrow_vector2_to_value (v : Vector2) :
  Vec2.narrow (Vec2.to_value v) = v.
Proof. destruct v; reflexivity. Qed.

(** The overload [mul(m, v: Vector2)]. *)
Lemma mul2_vector (m : Matrix2) (v : Vector2) :
  mul m (Vec2.to_value v) = PVector (mul_vector m v).
Proof.
  unfold mul.
  rewrite isMatrix2_vector, isVector2_to_value, narrow_vector2_to_value.
  reflexivity.
Qed.

Lemma product2_assoc (m n p : Matrix2) :
  mul_matrix (mul_matrix m n) p = mul_matrix m (mul_matrix n p).
Proof. destruct m, n, p. matrix_ring. Qed.

Lemma product2_identity_l (m : Matrix2) : mul_matrix Identity m = m.
Proof. destruct m. matrix_ring. Qed.

Lemma product2_identity_r (m : Matrix2) : mul_matrix m Identity = m.
Proof. destruct m. matrix_ring. Qed.


Lemma determinant2_identity : determinant Identity = 1.
Proof. matrix_ring. Qed.






End Mat2Algebra.

Module Mat3Algebra.
Import Vec3 Mat3.

Lemma isMatrix3_vector (v : Vector3) : isMatrix3 (Vec3.to_value v) = false.
Proof. destruct v; reflexivity. Qed.

(** The overload [mul(m, v: Vector3)]. *)
Lemma mul3_vector (m : Matrix3) (v : Vector3) :
  mul m (Vec3.to_value v) = PVector (mul_vector m v).
Proof.
  unfold mul.
  rewrite isMatrix3_vector, Vec3Facts.isVector3_to_value,
    Vec3Facts.narrow_vector3_to_value.
  reflexivity.
Qed.

Lemma product3_assoc (m n p : Matrix3) :
  mul_matrix (mul_matrix m n) p = mul_matrix m (mul_matrix n p).
Proof. destruct m, n, p. matrix_ring. Qed.

Lemma product3_identity_l (m : Matrix3) : mul_matrix Identity m = m.
Proof. destruct m. matrix_ring. Qed.

Lemma product3_identity_r (m : Matrix3) : mul_matrix m Identity = m.
Proof. destruct m. matrix_ring. Qed.



Lemma inverse3_returns (m : Matrix3) :
  determinant m <> 0 -> inverse m = Return (inverse3_value m).
Proof. apply Mat3Facts.inverse3_regular. Qed.





End Mat3Algebra.

(** ** Further properties of the operations *)


(** Property X1.
    The identity matrix is neutral for [mul]: on the left and on the right
    of a matrix, and on the left of a vector; scaling by 1 changes
    nothing. *)
Theorem mul_identity_neutral (m2 : Mat2.Matrix2) (v2 : Vec2.Vector2)
    (m3 : Mat3.Matrix3) (v3 : Vec3.Vector3) :
  Mat2.mul Mat2.Identity (Mat2.to_value m2) = Mat2.PMatrix m2
  /\ Mat2.mul m2 (Mat2.to_value Mat2.Identity) = Mat2.PMatrix m2
  /\ Mat2.mul Mat2.Identity (Vec2.to_value v2) = Mat2.PVector v2
  /\ Mat2.mul m2 (VNumber 1) = Mat2.PMatrix m2
  /\ Mat3.mul Mat3.Identity (Mat3.to_value m3) = Mat3.PMatrix m3
  /\ Mat3.mul m3 (Mat3.to_value Mat3.Identity) = Mat3.PMatrix m3
  /\ Mat3.mul Mat3.Identity (Vec3.to_value v3) = Mat3.PVector v3
  /\ Mat3.mul m3 (VNumber 1) = Mat3.PMatrix m3.
Proof.
  rewrite !Mat2Facts.mul2_to_value, !Mat3Facts.mul3_to_value,
    Mat2Algebra.mul2_vector, Mat3Algebra.mul3_vector,
    Mat2Facts.mul2_number, Mat3Facts.mul3_number,
    Mat2Algebra.product2_identity_l, Mat2Algebra.product2_identity_r,
    Mat3Algebra.product3_identity_l, Mat3Algebra.product3_identity_r.
  destruct m2, m3, v2, v3.
  repeat split; f_equal; matrix_ring.
Qed.

(** Property X2.
    The matrix product is associative: [mul(mul(m, n), p)] and
    [mul(m, mul(n, p))] are the same matrix. *)
Theorem mul_associative (m2 n2 p2 : Mat2.Matrix2) (m3 n3 p3 : Mat3.Matrix3) :
  Mat2.mul (Mat2.mul_matrix m2 n2) (Mat2.to_value p2)
  = Mat2.mul m2 (Mat2.to_value (Mat2.mul_matrix n2 p2))
  /\ Mat3.mul (Mat3.mul_matrix m3 n3) (Mat3.to_value p3)
     = Mat3.mul m3 (Mat3.to_value (Mat3.mul_matrix n3 p3)).
Proof.
  rewrite !Mat2Facts.mul2_to_value, !Mat3Facts.mul3_to_value,
    Mat2Algebra.product2_assoc, Mat3Algebra.product3_assoc.
  split; reflexivity.
Qed.




(** Property X6.
    The transpose of a product is the product of the transposes in the
    opposite order. *)
Theorem transpose_product (m2 n2 : Mat2.Matrix2) (m3 n3 : Mat3.Matrix3) :
  Mat2.transpose (Mat2.mul_matrix m2 n2)
  = Mat2.mul_matrix (Mat2.transpose n2) (Mat2.transpose m2)
  /\ Mat3.transpose (Mat3.mul_matrix m3 n3)
     = Mat3.mul_matrix (Mat3.transpose n3) (Mat3.transpose m3).
Proof. destruct m2, n2, m3, n3. split; matrix_ring. Qed.

















(** The matrix product works column by column: each column of
    [mul(m, n)] is [mul(m, c)] for the matching column [c] of [n]. *)
Theorem product_columns (m2 n2 : Mat2.Matrix2) (m3 n3 : Mat3.Matrix3) :
  Mat2.mul m2 (Vec2.to_value (Mat2.c1 n2))
  = Mat2.PVector (Mat2.c1 (Mat2.mul_matrix m2 n2))
  /\ Mat2.mul m2 (Vec2.to_value (Mat2.c2 n2))
     = Mat2.PVector (Mat2.c2 (Mat2.mul_matrix m2 n2))
  /\ Mat3.mul m3 (Vec3.to_value (Mat3.c1 n3))
     = Mat3.PVector (Mat3.c1 (Mat3.mul_matrix m3 n3))
  /\ Mat3.mul m3 (Vec3.to_value (Mat3.c2 n3))
     = Mat3.PVector (Mat3.c2 (Mat3.mul_matrix m3 n3))
  /\ Mat3.mul m3 (Vec3.to_value (Mat3.c3 n3))
     = Mat3.PVector (Mat3.c3 (Mat3.mul_matrix m3 n3)).
Proof.
  rewrite !Mat2Algebra.mul2_vector, !Mat3Algebra.mul3_vector.
  repeat split.
Qed.



Lemma from2_returns_iff (u : value) (v2 : optional Vec2.Vector2) :
  (exists m, Mat2.from u v2 = Return m)
  <-> (exists a, u = VArray a /\ (4 <= length a)%nat)
      \/ (Vec2.isVector2 u = true /\ exists v, v2 = Given v).
Proof.
  unfold Mat2.from.
  destruct (Vec2.isVector2 u) eqn:I; destruct u as [n | a | o];
    try discriminate I; cbn [Array_isArray array_length andb].
  - destruct v2 as [| | v]; split; eauto;
      try (intros [m H]; discriminate H);
      intros [(a & E & _) | [_ (v' & E)]]; discriminate E.
  - split; [intros [m H]; discriminate H |].
    intros [(a & E & _) | [E _]]; discriminate E.
  - destruct (Nat.leb_spec 4 (length a)) as [L | L].
    + split; eauto.
    + split; [intros [m H]; discriminate H |].
      intros [(b & E & Hb) | [E _]]; [| discriminate E].
      injection E as <-. lia.
  - split; [intros [m H]; discriminate H |].
    intros [(a & E & _) | [E _]]; discriminate E.
Qed.

Lemma from3_returns_iff (u : value) (v3 w3 : optional Vec3.Vector3) :
  (exists m, Mat3.from u v3 w3 = Return m)
  <-> (exists a, u = VArray a /\ (9 <= length a)%nat)
      \/ (Vec3.isVector3 u = true
          /\ exists v w, v3 = Given v /\ w3 = Given w).
Proof.
  unfold Mat3.from.
  destruct (Vec3.isVector3 u) eqn:I; destruct u as [n | a | o];
    try discriminate I; cbn [Array_isArray array_length andb].
  - destruct v3 as [| | v]; destruct w3 as [| | w]; split; eauto 6;
      try (intros [m H]; discriminate H);
      intros [(a & E & _) | [_ (v' & w' & E1 & E2)]];
      discriminate.
  - split; [intros [m H]; discriminate H |].
    intros [(a & E & _) | [E _]]; discriminate E.
  - destruct (Nat.leb_spec 9 (length a)) as [L | L].
    + split; eauto.
    + split; [intros [m H]; discriminate H |].
      intros [(b & E & Hb) | [E _]]; [| discriminate E].
      injection E as <-. lia.
  - split; [intros [m H]; discriminate H |].
    intros [(a & E & _) | [E _]]; discriminate E.
Qed.

Lemma from2_raises_only (u : value) (v2 : optional Vec2.Vector2) (e : exn) :
  Mat2.from u v2 = Throw e -> e = InvalidInput.
Proof.
  unfold Mat2.from.
  destruct (Array_isArray u && (4 <=? array_length u)%nat);
    [discriminate |].
  destruct (Vec2.isVector2 u); [destruct v2 |]; congruence.
Qed.

Lemma from3_raises_only (u : value) (v3 w3 : optional Vec3.Vector3)
    (e : exn) :
  Mat3.from u v3 w3 = Throw e -> e = InvalidInput.
Proof.
  unfold Mat3.from.
  destruct (Array_isArray u && (9 <=? array_length u)%nat);
    [discriminate |].
  destruct (Vec3.isVector3 u); [destruct v3, w3 |]; congruence.
Qed.

(** Property X18.
    [from] returns a matrix exactly when its first argument is an array of
    at least 4 (9) numbers, or has the shape of a vector while the other
    arguments are given; in every other case it raises InvalidInput, and it
    never raises anything else. *)
Theorem from_returns_iff (u : value) (v2 : optional Vec2.Vector2)
    (v3 w3 : optional Vec3.Vector3) :
  ((exists m, Mat2.from u v2 = Return m)
   <-> (exists a, u = VArray a /\ (4 <= length a)%nat)
       \/ (Vec2.isVector2 u = true /\ exists v, v2 = Given v))
  /\ (forall e, raises (Mat2.from u v2) e -> e = InvalidInput)
  /\ ((exists m, Mat3.from u v3 w3 = Return m)
      <-> (exists a, u = VArray a /\ (9 <= length a)%nat)
          \/ (Vec3.isVector3 u = true
              /\ exists v w, v3 = Given v /\ w3 = Given w))
  /\ (forall e, raises (Mat3.from u v3 w3) e -> e = InvalidInput).
Proof.
  split; [apply from2_returns_iff |].
  split; [apply from2_raises_only |].
  split; [apply from3_returns_iff | apply from3_raises_only].
Qed.

(** Property X19.
    Only the first 4 (9) numbers of an array count: what follows them, and
    the other arguments, change nothing. *)
Theorem from_array_ignores_rest (a extra : list number)
    (v2 v2' : optional Vec2.Vector2) (v3 w3 v3' w3' : optional Vec3.Vector3) :
  ((4 <= length a)%nat ->
   Mat2.from (VArray (a ++ extra)) v2 = Mat2.from (VArray a) v2')
  /\ ((9 <= length a)%nat ->
      Mat3.from (VArray (a ++ extra)) v3 w3 = Mat3.from (VArray a) v3' w3').
Proof.
  split; intros H.
  - destruct a as [| a0 [| a1 [| a2 [| a3 rest]]]]; simpl in H; try lia.
    reflexivity.
  - destruct a as [| a0 [| a1 [| a2 [| a3 [| a4 [| a5 [| a6 [| a7 [| a8 rest]]]]]]]]];
      simpl in H; try lia.
    reflexivity.
Qed.

Lemma from_array_ignores_rest_witness :
  (4 <= length sample_array)%nat
  /\ (9 <= length sample_array9)%nat
  /\ Mat2.from (VArray (sample_array ++ sample_array)) (Given (Vec2.mk 0 0))
     = Mat2.from (VArray sample_array) Undefined
  /\ Mat3.from (VArray (sample_array9 ++ sample_array)) Undefined Null
     = Mat3.from (VArray sample_array9) Undefined Undefined.
Proof.
  assert (H4 : (4 <= length sample_array)%nat) by (simpl; lia).
  assert (H9 : (9 <= length sample_array9)%nat) by (simpl; lia).
  split; [exact H4 |]. split; [exact H9 |].
  split.
  - exact (proj1 (from_array_ignores_rest sample_array sample_array
                    (Given (Vec2.mk 0 0)) Undefined
                    Undefined Undefined Undefined Undefined) H4).
  - exact (proj2 (from_array_ignores_rest sample_array9 sample_array
                    Undefined Undefined
                    Undefined Null Undefined Undefined) H9).
Defined.

(** Property X20.
    [from] on column vectors and the column and row accessors agree: the
    matrix built from [u], [v] (and [w]) has them as columns and their
    components as rows, and a matrix is rebuilt from its own columns.  The
    earlier [from] of matrix3.ts gives the same matrix. *)
Theorem from_columns_round_trip (m2 : Mat2.Matrix2) (u2 v2 : Vec2.Vector2)
    (m3 : Mat3.Matrix3) (u3 v3 w3 : Vec3.Vector3) :
  Mat2.from (Vec2.to_value (Mat2.c1 m2)) (Given (Mat2.c2 m2)) = Return m2
  /\ (exists m, Mat2.from (Vec2.to_value u2) (Given v2) = Return m
        /\ Mat2.c1 m = u2 /\ Mat2.c2 m = v2
        /\ Mat2.r1 m = Vec2.mk (Vec2.x u2) (Vec2.x v2)
        /\ Mat2.r2 m = Vec2.mk (Vec2.y u2) (Vec2.y v2))
  /\ Mat3.from (Vec3.to_value (Mat3.c1 m3))
        (Given (Mat3.c2 m3)) (Given (Mat3.c3 m3)) = Return m3
  /\ (exists m, Mat3.from (Vec3.to_value u3) (Given v3) (Given w3) = Return m
        /\ m = Mat3Old.from u3 v3 w3
        /\ Mat3.c1 m = u3 /\ Mat3.c2 m = v3 /\ Mat3.c3 m = w3
        /\ Mat3.r1 m = Vec3.mk (Vec3.x u3) (Vec3.x v3) (Vec3.x w3)
        /\ Mat3.r2 m = Vec3.mk (Vec3.y u3) (Vec3.y v3) (Vec3.y w3)
        /\ Mat3.r3 m = Vec3.mk (Vec3.z u3) (Vec3.z v3) (Vec3.z w3)).
Proof.
  assert (F2 : forall u v : Vec2.Vector2,
             Mat2.from (Vec2.to_value u) (Given v)
             = Return {| Mat2.ux := Vec2.x u; Mat2.vx := Vec2.x v;
                         Mat2.uy := Vec2.y u; Mat2.vy := Vec2.y v |}).
  { intros u v. unfold Mat2.from.
    rewrite Mat2Algebra.isVector2_to_value,
      Mat2Algebra.narrow_vector2_to_value.
    reflexivity. }
  rewrite !F2, !Mat3Facts.from_columns.
  destruct m2, u2, v2, m3, u3, v3, w3. cbn.
  repeat split; eexists; repeat split.
Qed.

(** Property X21.
    [isMatrix2] and [isVector2] look at four and two field names only, so
    an operand of the other size gets through: [Mat2.mul] treats a 3x3
    matrix as its upper left block and a 3D vector as its [x], [y] part.
    [Mat3.mul] given a 2x2 matrix or a 2D vector finds neither shape,
    scales by the operand and returns only NaN coefficients. *)
Theorem mul_operand_of_other_size (m2 n2 : Mat2.Matrix2) (v2 : Vec2.Vector2)
    (m3 n3 : Mat3.Matrix3) (v3 : Vec3.Vector3) :
  Mat2.mul m2 (Mat3.to_value n3)
  = Mat2.PMatrix (Mat2.mul_matrix m2 (upper_left n3))
  /\ Mat2.mul m2 (Vec3.to_value v3)
     = Mat2.PVector (Mat2.mul_vector m2 (Vec2.mk (Vec3.x v3) (Vec3.y v3)))
  /\ Mat3.mul m3 (Mat2.to_value n2) = Mat3.AllNaN
  /\ Mat3.mul m3 (Vec2.to_value v2) = Mat3.AllNaN.
Proof.
  destruct n2, v2, n3, v3. repeat split.
Qed.

(** Property X22.
    An array as the operand of [mul] is neither matrix nor vector and is
    converted to a number: the empty array scales by 0, a one-element array
    by its element, a longer array gives only NaN coefficients. *)
Theorem mul_array_operand (m2 : Mat2.Matrix2) (m3 : Mat3.Matrix3)
    (a : list number) :
  Mat2.mul m2 (VArray a)
  = match a with
    | nil => Mat2.PMatrix (Mat2.mul_scalar m2 0)
    | s :: nil => Mat2.mul m2 (VNumber s)
    | _ :: _ :: _ => Mat2.AllNaN
    end
  /\ Mat3.mul m3 (VArray a)
     = match a with
       | nil => Mat3.PMatrix (Mat3.mul_scalar m3 0)
       | s :: nil => Mat3.mul m3 (VNumber s)
       | _ :: _ :: _ => Mat3.AllNaN
       end.
Proof. destruct a as [| s [| t rest]]; split; reflexivity. Qed.

Lemma has_field_weaken (k : string) (o o' : gmap string number) :
  o ⊆ o' -> has_field k (VObject o) = true ->
  has_field k (VObject o') = true /\ field (VObject o') k = field (VObject o) k.
Proof.
  intros S H. cbn in *. apply bool_decide_eq_true in H. destruct H as [a Ha].
  pose proof (lookup_weaken _ _ _ _ Ha S) as Ha'.
  rewrite Ha, Ha'. split; [| reflexivity].
  apply bool_decide_eq_true. eauto.
Qed.

(** Property X23.
    Fields beyond the coefficients do not count: a matrix operand with
    additional fields gives the same product as the operand without
    them. *)
Theorem mul_ignores_extra_fields (m2 : Mat2.Matrix2) (m3 : Mat3.Matrix3)
    (o o' : gmap string number) (S : o ⊆ o') :
  (Mat2.isMatrix2 (VObject o) = true ->
   Mat2.isMatrix2 (VObject o') = true
   /\ Mat2.mul m2 (VObject o') = Mat2.mul m2 (VObject o))
  /\ (Mat3.isMatrix3 (VObject o) = true ->
      Mat3.isMatrix3 (VObject o') = true
      /\ Mat3.mul m3 (VObject o') = Mat3.mul m3 (VObject o)).
Proof.
  split; intros H.
  - assert (H' := H). unfold Mat2.isMatrix2 in H'.
    repeat (apply andb_prop in H'; destruct H' as [H' ?]).
    repeat match goal with
           | P : has_field _ (VObject o) = true |- _ =>
               apply (has_field_weaken _ _ _ S) in P; destruct P as [? ?]
           end.
    assert (I : Mat2.isMatrix2 (VObject o') = true).
    { unfold Mat2.isMatrix2.
      repeat (apply andb_true_intro; split); auto. }
    split; [exact I |].
    unfold Mat2.mul. rewrite H, I. unfold Mat2.narrow. congruence.
  - assert (H' := H). unfold Mat3.isMatrix3 in H'.
    repeat (apply andb_prop in H'; destruct H' as [H' ?]).
    repeat match goal with
           | P : has_field _ (VObject o) = true |- _ =>
               apply (has_field_weaken _ _ _ S) in P; destruct P as [? ?]
           end.
    assert (I : Mat3.isMatrix3 (VObject o') = true).
    { unfold Mat3.isMatrix3.
      repeat (apply andb_true_intro; split); auto. }
    split; [exact I |].
    unfold Mat3.mul. rewrite H, I. unfold Mat3.narrow. congruence.
Qed.

Lemma sample2_tagged_extends : sample2_fields ⊆ sample2_tagged.
Proof. apply insert_subseteq. reflexivity. Qed.

Lemma sample3_tagged_extends : sample3_fields ⊆ sample3_tagged.
Proof. apply insert_subseteq. reflexivity. Qed.

Lemma mul_ignores_extra_fields_witness :
  sample2_fields ⊆ sample2_tagged
  /\ sample3_fields ⊆ sample3_tagged
  /\ Mat2.isMatrix2 (VObject sample2_fields) = true
  /\ Mat3.isMatrix3 (VObject sample3_fields) = true
  /\ Mat2.mul sample2 (VObject sample2_tagged)
     = Mat2.mul sample2 (VObject sample2_fields)
  /\ Mat3.mul sample3 (VObject sample3_tagged)
     = Mat3.mul sample3 (VObject sample3_fields).
Proof.
  split; [exact sample2_tagged_extends |].
  split; [exact sample3_tagged_extends |].
  split; [reflexivity |]. split; [reflexivity |].
  split.
  - exact (proj2 (proj1 (mul_ignores_extra_fields sample2 sample3
                           sample2_fields sample2_tagged
                           sample2_tagged_extends) eq_refl)).
  - exact (proj2 (proj2 (mul_ignores_extra_fields sample2 sample3
                           sample3_fields sample3_tagged
                           sample3_tagged_extends) eq_refl)).
Defined.

(** Property X24.
    The earlier [mul] of matrix3.ts and the later one agree on every
    operand that is not a matrix.  On a matrix operand the earlier one has
    no product to offer: it applies the matrix to the operand as a vector
    when the operand also has [x], [y], [z], and otherwise scales by it and
    returns only NaN coefficients. *)
Theorem earlier_mul_agrees (m : Mat3.Matrix3) (t : value) :
  (Mat3.isMatrix3 t = false -> Mat3Old.mul m t = Mat3.mul m t)
  /\ (Mat3.isMatrix3 t = true -> Vec3.isVector3 t = true ->
      Mat3Old.mul m t = Mat3.PVector (Mat3.mul_vector m (Vec3.narrow t))
      /\ Mat3.mul m t = Mat3.PMatrix (Mat3.mul_matrix m (Mat3.narrow t)))
  /\ (Mat3.isMatrix3 t = true -> Vec3.isVector3 t = false ->
      Mat3Old.mul m t = Mat3.AllNaN).
Proof.
  unfold Mat3Old.mul, Mat3.mul.
  split; [| split].
  - intros ->. destruct (Vec3.isVector3 t); reflexivity.
  - intros -> ->. split; reflexivity.
  - intros Hm ->. destruct t as [n | a | o]; try discriminate Hm.
    reflexivity.
Qed.

Lemma earlier_mul_agrees_witness :
  Mat3.isMatrix3 (VNumber 2) = false
  /\ Mat3.isMatrix3 both_shapes = true
  /\ Vec3.isVector3 both_shapes = true
  /\ Mat3.isMatrix3 (Mat3.to_value sample3) = true
  /\ Vec3.isVector3 (Mat3.to_value sample3) = false
  /\ Mat3Old.mul sample3 (VNumber 2) = Mat3.mul sample3 (VNumber 2)
  /\ Mat3Old.mul sample3 both_shapes
     = Mat3.PVector (Mat3.mul_vector sample3 (Vec3.narrow both_shapes))
  /\ Mat3Old.mul sample3 (Mat3.to_value sample3) = Mat3.AllNaN.
Proof.
  do 5 (split; [reflexivity |]).
  split; [| split].
  - exact (proj1 (earlier_mul_agrees sample3 (VNumber 2)) eq_refl).
  - exact (proj1 (proj1 (proj2 (earlier_mul_agrees sample3 both_shapes))
                    eq_refl eq_refl)).
  - exact (proj2 (proj2 (earlier_mul_agrees sample3 (Mat3.to_value sample3)))
             eq_refl eq_refl).
Defined.

Lemma square_nonneg (a : number) : 0 <= a * a.
Proof.
  assert (E : a * a = Qcabs a * Qcabs a).
  { apply (Qcabs_case a (fun r => a * a = r * r)); intros _; ring. }
  rewrite E. apply Qcmult_nonneg_nonneg; apply Qcabs_nonneg.
Qed.





Lemma abs_one_square (a : number) : Qcabs a = 1 -> a * a = 1.
Proof.
  intros H.
  assert (E : a * a = Qcabs a * Qcabs a).
  { apply (Qcabs_case a (fun r => a * a = r * r)); intros _; ring. }
  rewrite E, H. ring.
Qed.

(** Property X27.
    At the pole, [|n.y| === 1], the result does not depend on [normalize]:
    its columns are [West], [n] and [(0, -n.z, n.y)].  The test looks at
    [n.y] alone, so the first column is orthogonal to [n] only when [n.x]
    is zero.  The determinant is [-(1 + n.z^2)], so [inverse] never raises
    on this matrix. *)
Theorem buildTNB_pole (normalize : Vec3.Vector3 -> Vec3.Vector3)
    (n : Vec3.Vector3) (H : Qcabs (Vec3.y n) = 1) :
  exists m mi,
    Mat3.buildTNB normalize n = Return m
    /\ m = {| Mat3.ux := - 1; Mat3.vx := Vec3.x n; Mat3.wx := 0;
              Mat3.uy := 0;   Mat3.vy := Vec3.y n; Mat3.wy := - Vec3.z n;
              Mat3.uz := 0;   Mat3.vz := Vec3.z n; Mat3.wz := Vec3.y n |}
    /\ Vec3.dot (Mat3.c1 m) (Mat3.c2 m) = - Vec3.x n
    /\ Mat3.determinant m = - (1 + Vec3.z n * Vec3.z n)
    /\ Mat3.inverse m = Return mi.
Proof.
  unfold Mat3.buildTNB. cbv zeta.
  pose proof (abs_one_square _ H) as Sq.
  apply strict_eq_true in H. rewrite H.
  rewrite Mat3Facts.from_columns.
  destruct n as [nx ny nz]. cbn in Sq.
  set (m := Mat3.mk _ _ _ _ _ _ _ _ _).
  assert (D : Mat3.determinant m = - (1 + nz * nz)).
  { subst m. unfold_matrix.
    transitivity (- (ny * ny + nz * nz)); [ring | rewrite Sq; reflexivity]. }
  assert (N : Mat3.determinant m <> 0).
  { rewrite D. intros E.
    assert (P : 0 < 1 + nz * nz).
    { apply Qcplus_pos_nonneg; [reflexivity | apply square_nonneg]. }
    assert (Z : 1 + nz * nz = 0).
    { rewrite <- (Qcopp_involutive (1 + nz * nz)), E. reflexivity. }
    rewrite Z in P. discriminate P. }
  exists m, (inverse3_value m).
  split; [reflexivity |].
  split; [subst m; unfold Vec3.cross, Vec3.West; cbn; f_equal; ring |].
  split; [subst m; matrix_ring |].
  split; [exact D | apply (Mat3Algebra.inverse3_returns _ N)].
Qed.

Lemma skew_pole_is_pole : Qcabs (Vec3.y skew_pole) = 1.
Proof. qc_eq. Qed.

Lemma buildTNB_pole_witness :
  Qcabs (Vec3.y skew_pole) = 1
  /\ exists m mi,
       Mat3.buildTNB id skew_pole = Return m
       /\ Vec3.dot (Mat3.c1 m) (Mat3.c2 m) = - Vec3.x skew_pole
       /\ Mat3.inverse m = Return mi.
Proof.
  split; [exact skew_pole_is_pole |].
  destruct (buildTNB_pole id skew_pole skew_pole_is_pole)
    as (m & mi & Hm & _ & Hd & _ & Hi).
  exists m, mi. split; [exact Hm |]. split; [exact Hd | exact Hi].
Defined.


